(** * Boost.Astronomy coordinate representations: [base_representation]

    A shallow embedding of
    [include/boost/astronomy/coordinate/base_representation.hpp]:
    the representation container, its canonical-space algebra ([cross],
    [dot], [unit_vector], [to_representation], [sum], [mean],
    [magnitude]) and the compile-time capability check
    ([is_base_template_of]).

    The C++ [double] is the IEEE 754 binary64 format; it is modelled by
    Rocq's primitive floats, so every definition below evaluates.  All
    NaNs are one value in this model (payloads are not represented). *)

From Stdlib Require Import ZArith Bool List String Floats Lia.
Import ListNotations.

Local Open Scope float_scope.

(** ** Binary64 values *)

Module Binary64.

(** Two doubles hold the same value when they are the same datum or
    compare equal ([==] in C++, which identifies [+0.0] and [-0.0]). *)
Definition same_value (x y : float) : Prop :=
  x = y \/ (x =? y) = true.

End Binary64.

(** ** The geometry kernel (Boost.Geometry) *)

Module Geometry.

(** Coordinate-system tags of [boost::geometry::cs]. *)
Inductive angle_unit : Set := degree | radian.

Inductive cs : Set :=
| cartesian
| spherical (u : angle_unit)
| spherical_equatorial (u : angle_unit)
| geographic (u : angle_unit)
| polar (u : angle_unit).

(** [boost::geometry::model::point<double, DimensionCount, Type>]: the
    two template arguments and the stored coordinates. *)
Record point : Type := Build_point {
  dimension : nat;
  system : cs;
  values : list float
}.

(** [boost::geometry::model::point<double, 3, boost::geometry::cs::cartesian>],
    the canonical working value of every operation. *)
Record cartesian_point : Type := Build_cartesian_point {
  c0 : float;
  c1 : float;
  c2 : float
}.

(** [boost::geometry::get<I>(p)] and [boost::geometry::set<I>(p, v)] on a
    3-D cartesian point. *)
Definition get (I : nat) (p : cartesian_point) : float :=
  match I with
  | 0%nat => c0 p
  | 1%nat => c1 p
  | _ => c2 p
  end.

Definition set (I : nat) (p : cartesian_point) (v : float) : cartesian_point :=
  match I with
  | 0%nat => Build_cartesian_point v (c1 p) (c2 p)
  | 1%nat => Build_cartesian_point (c0 p) v (c2 p)
  | _ => Build_cartesian_point (c0 p) (c1 p) v
  end.

(** The canonical point seen as a kernel point again. *)
Definition as_point (p : cartesian_point) : point :=
  Build_point 3 cartesian [c0 p; c1 p; c2 p].

(** Modelled from the spec: the kernel's 3-D dot product
    ([boost/geometry/arithmetic/dot_product.hpp] is not among the
    sources).  The products of the coordinates are added from the last
    dimension to the first, as the kernel's recursion does. *)
Definition dot_product (p1 p2 : cartesian_point) : float :=
  get 0 p1 * get 0 p2 + (get 1 p1 * get 1 p2 + get 2 p1 * get 2 p2).

(** Modelled from the spec: the kernel's 3-D cross product
    ([boost/geometry/arithmetic/cross_product.hpp] is not among the
    sources). *)
Definition cross_product (p1 p2 : cartesian_point) : cartesian_point :=
  Build_cartesian_point
    (get 1 p1 * get 2 p2 - get 2 p1 * get 1 p2)
    (get 2 p1 * get 0 p2 - get 0 p1 * get 2 p2)
    (get 0 p1 * get 1 p2 - get 1 p1 * get 0 p2).

(** Modelled from the spec: the kernel's [transform] on the cartesian
    fragment.  Between two cartesian point types the kernel copies each
    coordinate; the conversions from the curvilinear systems need the
    kernel's trigonometry and stay a parameter of the development. *)
Definition copy_per_coordinate (p : point) : cartesian_point :=
  Build_cartesian_point
    (nth 0 (values p) 0) (nth 1 (values p) 0) (nth 2 (values p) 0).

End Geometry.

(** ** The capability check and the static assertions *)

Module StaticCheck.
Import Geometry.

(** The C++ types the check is asked about: fundamental types, the
    specializations of [base_representation], classes without a base or
    with one public base, and cv-qualified types. *)
Inductive type : Set :=
| fundamental (name : string)
| base_representation (DimensionCount : Z) (Type_ : cs)
| class (name : string)
| derived_class (name : string) (public_base : type)
| const (T : type)
| volatile (T : type).

(** [std::remove_cv]: the top-level qualifiers go. *)
Fixpoint remove_cv (T : type) : type :=
  match T with
  | const U => remove_cv U
  | volatile U => remove_cv U
  | _ => T
  end.

Inductive integral_constant : Set := true_type | false_type.

Definition value (c : integral_constant) : bool :=
  match c with
  | true_type => true
  | false_type => false
  end.

(** The [type] member of [base_template], with [Base] the template
    [base_representation]: the result type of calling [test] on a pointer
    to [U].  The overload taking a pointer to [Base<T, Args...>] is chosen
    when the pointer converts to a pointer to some specialization of
    [Base], that is when [U] is one or derives from one; otherwise the
    overload taking a pointer to [void] is. *)
Fixpoint test (U : type) : integral_constant :=
  match U with
  | base_representation _ _ => true_type
  | derived_class _ B => test B
  | _ => false_type
  end.

Definition is_base_template_of (Derived : type) : integral_constant :=
  test (remove_cv Derived).

(** What an operation hands to [BOOST_STATIC_ASSERT_MSG] as its
    condition: the [::value] of the trait, a constant expression, or the
    trait itself, which names a type and is no expression. *)
Inductive condition : Set :=
| constant_expression (b : bool)
| type_id (T : integral_constant).

Inductive diagnostic : Set :=
| static_assertion_failed (message : string)
| expected_expression.

Definition BOOST_STATIC_ASSERT_MSG (c : condition) (message : string)
    : list diagnostic :=
  match c with
  | constant_expression true => []
  | constant_expression false => [static_assertion_failed message]
  | type_id _ => [expected_expression]
  end.

Definition argument_message : string :=
  "function argument type is expected to be a representation type".

Definition return_message : string :=
  "return type is expected to be a representation class".

(** The diagnostics of the static assertions each operation opens with,
    in the order of the source.  An instantiation that raises one does
    not build; one that raises none still has its body to compile. *)
Definition cross (ReturnType Representation : type) : list diagnostic :=
  BOOST_STATIC_ASSERT_MSG
    (constant_expression (value (is_base_template_of Representation)))
    argument_message
  ++ BOOST_STATIC_ASSERT_MSG
    (constant_expression (value (is_base_template_of ReturnType)))
    return_message.

Definition dot (Representation : type) : list diagnostic :=
  BOOST_STATIC_ASSERT_MSG
    (constant_expression (value (is_base_template_of Representation)))
    argument_message.

Definition unit_vector (ReturnType : type) : list diagnostic :=
  BOOST_STATIC_ASSERT_MSG
    (constant_expression (value (is_base_template_of ReturnType)))
    return_message.

Definition to_representation (ReturnType : type) : list diagnostic :=
  BOOST_STATIC_ASSERT_MSG
    (type_id (is_base_template_of ReturnType))
    return_message.

Definition sum (ReturnType Representation : type) : list diagnostic :=
  BOOST_STATIC_ASSERT_MSG
    (constant_expression (value (is_base_template_of Representation)))
    argument_message
  ++ BOOST_STATIC_ASSERT_MSG
    (constant_expression (value (is_base_template_of ReturnType)))
    return_message.

Definition mean (ReturnType Representation : type) : list diagnostic :=
  BOOST_STATIC_ASSERT_MSG
    (constant_expression (value (is_base_template_of Representation)))
    argument_message
  ++ BOOST_STATIC_ASSERT_MSG
    (constant_expression (value (is_base_template_of ReturnType)))
    return_message.

(** Modelled from the spec: the C++ type of the concrete cartesian
    representation (its header is not among the sources), a class
    deriving from [base_representation<3, boost::geometry::cs::cartesian>]
    that declares the constructors from a point. *)
Definition cartesian_representation : type :=
  derived_class "cartesian_representation" (base_representation 3 cartesian).

End StaticCheck.

(** ** The representation container and its algebra *)

Module Coordinate.
Import Geometry.

(** [base_representation<DimensionCount, Type>]: its only member is the
    protected [point]; the two template arguments are those of the point. *)
Record base_representation : Type := Build_base_representation {
  point : Geometry.point
}.

Definition DimensionCount (self : base_representation) : nat :=
  dimension (point self).

Definition get_point (self : base_representation) : Geometry.point :=
  point self.

(** A representation class, as the operations use one: the explicit
    template argument [ReturnType].  The class derives from
    [base_representation] ([base] is the base sub-object) and is built
    either from a canonical cartesian point or from a native point of any
    system; both constructors belong to the concrete class. *)
Record representation_class : Type := Build_representation_class {
  object : Type;
  base : object -> base_representation;
  from_cartesian : cartesian_point -> object;
  from_point : Geometry.point -> object
}.

(** What instantiating a member template gives: the function, or the
    diagnostics of the static assertions that refuse it. *)
Inductive instantiation (A : Type) : Type :=
| well_formed (f : A)
| ill_formed (diagnostics : list StaticCheck.diagnostic).

Arguments well_formed {A} f.
Arguments ill_formed {A} diagnostics.

Section Algebra.

(** [boost::geometry::transform(p, tempPoint)] into the canonical 3-D
    cartesian point. *)
Variable transform : Geometry.point -> cartesian_point.

(** A default-constructed canonical point: the kernel leaves its
    coordinates uninitialised. *)
Variable uninitialised : cartesian_point.

Definition cross (ReturnType : representation_class)
    (self other : base_representation) : object ReturnType :=
  let tempPoint1 := transform (point self) in
  let tempPoint2 := transform (get_point other) in
  from_cartesian ReturnType (cross_product tempPoint1 tempPoint2).

Definition dot (self other : base_representation) : float :=
  let tempPoint1 := transform (point self) in
  let tempPoint2 := transform (get_point other) in
  dot_product tempPoint1 tempPoint2.

Definition magnitude (self : base_representation) : float :=
  let result := 0 in
  let tempPoint := transform (point self) in
  sqrt result.

Definition unit_vector (ReturnType : representation_class)
    (self : base_representation) : object ReturnType :=
  let mag := magnitude self in
  let tempPoint := transform (point self) in
  let tempPoint := set 0 tempPoint (get 0 tempPoint / mag) in
  let tempPoint := set 1 tempPoint (get 1 tempPoint / mag) in
  let tempPoint := set 2 tempPoint (get 2 tempPoint / mag) in
  from_cartesian ReturnType tempPoint.

(** [to_representation<ReturnType>]: the template argument is looked at
    as a C++ type by the static assertion and as a class by the call of
    its constructor.  The assertion is handed the capability check itself,
    not its [::value]. *)
Definition to_representation (ReturnType_type : StaticCheck.type)
    (ReturnType : representation_class)
    : instantiation (base_representation -> object ReturnType) :=
  match
    StaticCheck.BOOST_STATIC_ASSERT_MSG
      (StaticCheck.type_id (StaticCheck.is_base_template_of ReturnType_type))
      StaticCheck.return_message
  with
  | [] => well_formed (fun self => from_point ReturnType (point self))
  | diagnostics => ill_formed diagnostics
  end.

Definition sum (ReturnType : representation_class)
    (self other : base_representation) : object ReturnType :=
  let tempPoint1 := transform (point self) in
  let tempPoint2 := transform (get_point other) in
  let result := uninitialised in
  let result := set 0 result (get 0 tempPoint1 + get 0 tempPoint2) in
  let result := set 1 result (get 1 tempPoint1 + get 1 tempPoint2) in
  let result := set 2 result (get 2 tempPoint1 + get 2 tempPoint2) in
  from_cartesian ReturnType result.

Definition mean (ReturnType : representation_class)
    (self other : base_representation) : object ReturnType :=
  let tempPoint1 := transform (point self) in
  let tempPoint2 := transform (get_point other) in
  let result := uninitialised in
  let result := set 0 result ((get 0 tempPoint1 + get 0 tempPoint2) / 2) in
  let result := set 1 result ((get 1 tempPoint1 + get 1 tempPoint2) / 2) in
  let result := set 2 result ((get 2 tempPoint1 + get 2 tempPoint2) / 2) in
  from_cartesian ReturnType result.

(** Modelled from the spec: the concrete cartesian representation (its
    header is not among the sources), a class that "accepts a canonical
    3-D cartesian point and produces a valid instance in the type's own
    coordinate system".  Its own system is the canonical one, so it
    stores the canonical point as it is; built from a native point of
    another class it lets the kernel convert. *)
Definition cartesian_representation : representation_class :=
  {| object := cartesian_point;
     base := fun p => Build_base_representation (as_point p);
     from_cartesian := fun p => p;
     from_point := fun p => transform p |}.

End Algebra.

(** *** The canonical computations in the words of the specification *)

(** "Euclidean norm: square root of the sum of squares of the three
    canonical cartesian components". *)
Definition euclidean_norm (p : cartesian_point) : float :=
  sqrt (c0 p * c0 p + c1 p * c1 p + c2 p * c2 p).

(** "component-wise addition of the two canonical cartesian vectors". *)
Definition componentwise_sum (p q : cartesian_point) : cartesian_point :=
  Build_cartesian_point (c0 p + c0 q) (c1 p + c1 q) (c2 p + c2 q).

(** "every canonical component halved". *)
Definition halved (p : cartesian_point) : cartesian_point :=
  Build_cartesian_point (c0 p / 2) (c1 p / 2) (c2 p / 2).

(** "canonical cartesian vector divided component-wise by its magnitude". *)
Definition divided_by (p : cartesian_point) (m : float) : cartesian_point :=
  Build_cartesian_point (c0 p / m) (c1 p / m) (c2 p / m).

(** Two canonical vectors are additive inverses of each other when each
    component of one holds the negated component of the other. *)
Definition additive_inverses (p q : cartesian_point) : Prop :=
  Binary64.same_value (c0 p) (- c0 q)
  /\ Binary64.same_value (c1 p) (- c1 q)
  /\ Binary64.same_value (c2 p) (- c2 q).

(** The contract of a result type that converts back: the kernel reads,
    from an instance built from a canonical point, a canonical point that
    is [close] to it ([close] is the comparison within the conversion
    tolerance of the class). *)
Definition converts_back
    (transform : Geometry.point -> cartesian_point)
    (close : cartesian_point -> cartesian_point -> Prop)
    (ReturnType : representation_class) : Prop :=
  forall p : cartesian_point,
    close (transform (get_point (base ReturnType (from_cartesian ReturnType p)))) p.

End Coordinate.

(** * Properties *)

(** ** Binary64 arithmetic *)

Module Binary64Facts.
Import Binary64.

Lemma SFmul_comm (x y : spec_float) : SF64mul x y = SF64mul y x.
Proof.
  unfold SF64mul, SFmul.
  destruct x as [sx | sx | | sx mx ex], y as [sy | sy | | sy my ey];
    try reflexivity; try (now rewrite (xorb_comm sx sy)).
  now rewrite (xorb_comm sx sy), (Pos.mul_comm mx my), (Z.add_comm ex ey).
Qed.

Lemma SFadd_comm (x y : spec_float) : SF64add x y = SF64add y x.
Proof.
  unfold SF64add, SFadd.
  destruct x as [sx | sx | | sx mx ex], y as [sy | sy | | sy my ey];
    try reflexivity; try (now destruct sx, sy).
  rewrite (Z.min_comm ex ey).
  now rewrite Z.add_comm.
Qed.

Lemma mul_comm (x y : float) : x * y = y * x.
Proof.
  apply Prim2SF_inj. now rewrite !mul_spec, SFmul_comm.
Qed.

Lemma add_comm (x y : float) : x + y = y + x.
Proof.
  apply Prim2SF_inj. now rewrite !add_spec, SFadd_comm.
Qed.

Lemma cond_Zopp_negb (s : bool) (m : Z) :
  cond_Zopp (negb s) m = Z.opp (cond_Zopp s m).
Proof. destruct s; simpl; lia. Qed.

Lemma SFopp_binary_round_aux (s : bool) (m e : Z) (l : location) :
  SFopp (binary_round_aux prec emax s m e l)
  = binary_round_aux prec emax (negb s) m e l.
Proof.
  unfold binary_round_aux.
  destruct (shr_fexp prec emax m e l) as [mrs' e'].
  destruct (shr_fexp prec emax _ e' loc_Exact) as [mrs'' e''].
  destruct (shr_m mrs''); try reflexivity.
  now destruct (Z.leb e'' (Z.sub emax prec)).
Qed.

Lemma SFopp_binary_round (s : bool) (m : positive) (e : Z) :
  SFopp (binary_round prec emax s m e) = binary_round prec emax (negb s) m e.
Proof.
  unfold binary_round.
  destruct (shl_align m e _) as [mz ez].
  apply SFopp_binary_round_aux.
Qed.

(** Negating the integer significand negates the rounded result, except
    that an exact zero is [+0] on both sides. *)
Lemma binary_normalize_opp (m e : Z) :
  m <> 0%Z ->
  binary_normalize prec emax (Z.opp m) e false
  = SFopp (binary_normalize prec emax m e false).
Proof.
  intros Hm. destruct m as [| p | p]; [congruence | |]; simpl;
    now rewrite SFopp_binary_round.
Qed.

(** [x - y] and [y - x] on specification floats: one is the opposite of
    the other, or both are [+0]. *)
Lemma SFsub_swap (x y : spec_float) :
  SF64sub x y = SFopp (SF64sub y x)
  \/ (SF64sub x y = S754_zero false /\ SF64sub y x = S754_zero false).
Proof.
  unfold SF64sub, SFsub.
  destruct x as [sx | sx | | sx mx ex], y as [sy | sy | | sy my ey];
    try (left; reflexivity);
    try (destruct sx, sy; simpl; auto; fail);
    try (left; simpl; now rewrite ?negb_involutive).
  rewrite (Z.min_comm ey ex).
  set (ez := Z.min ex ey).
  set (u := cond_Zopp sx (Zpos (fst (shl_align mx ex ez)))).
  set (v := cond_Zopp sy (Zpos (fst (shl_align my ey ez)))).
  destruct (Z.eq_dec (Z.sub u v) 0) as [E | N].
  - right. replace (Z.sub v u) with 0%Z by lia. rewrite E. split; reflexivity.
  - left. replace (Z.sub u v) with (Z.opp (Z.sub v u)) by lia.
    apply binary_normalize_opp. lia.
Qed.

Lemma sub_swap (x y : float) :
  x - y = - (y - x) \/ (x - y = 0 /\ y - x = 0).
Proof.
  destruct (SFsub_swap (Prim2SF x) (Prim2SF y)) as [H | [H1 H2]].
  - left. apply Prim2SF_inj. now rewrite opp_spec, !sub_spec.
  - right. split; apply Prim2SF_inj; now rewrite sub_spec.
Qed.

Lemma sub_swap_same_value (x y : float) : same_value (x - y) (- (y - x)).
Proof.
  destruct (sub_swap x y) as [H | [H1 H2]].
  - now left.
  - right. rewrite H1, H2. reflexivity.
Qed.

End Binary64Facts.

(** ** Kernel points *)

Module GeometryFacts.
Import Geometry.

Lemma get_set_same (I : nat) (p : cartesian_point) (v : float) :
  get I (set I p v) = v.
Proof. destruct I as [| [| I]]; reflexivity. Qed.

Lemma copy_per_coordinate_as_point (p : cartesian_point) :
  copy_per_coordinate (as_point p) = p.
Proof. destruct p; reflexivity. Qed.


End GeometryFacts.

(** ** The canonical-space algebra *)

Module CoordinateFacts.
Import Binary64 Geometry Coordinate.

Lemma float_zero_not_one : (0 : float) <> 1.
Proof.
  intros H. apply (f_equal (fun x => x =? 1)) in H.
  vm_compute in H. discriminate.
Qed.

(** The three [set] calls of [sum], [mean] and [unit_vector] overwrite
    every coordinate of the point they start from. *)
Lemma set_all (p : cartesian_point) (v0 v1 v2 : float) :
  set 2 (set 1 (set 0 p v0) v1) v2 = Build_cartesian_point v0 v1 v2.
Proof. reflexivity. Qed.

Lemma float_zero_not_minus_zero : (0 : float) <> - 0.
Proof.
  intros H. apply (f_equal Prim2SF) in H.
  vm_compute in H. discriminate.
Qed.

(** The scenario of the specification, on the canonical points (1,0,0)
    and (0,1,0).  The components of the cross product that cancel exactly
    are [+0] in both orders, and [+0] is not the datum [-0]: additive
    inverses are compared as values. *)
Lemma cross_product_scenario :
  let p := Build_cartesian_point 1 0 0 in
  let q := Build_cartesian_point 0 1 0 in
  cross_product p q = Build_cartesian_point 0 0 1
  /\ cross_product q p = Build_cartesian_point 0 0 (- 1)
  /\ dot_product p q = 0
  /\ c0 (cross_product p q) <> - c0 (cross_product q p).
Proof.
  cbv zeta. repeat split.
  exact float_zero_not_minus_zero.
Qed.

Section WithKernel.
Variable transform : Geometry.point -> cartesian_point.
Variable uninitialised : cartesian_point.

Lemma magnitude_zero (a : base_representation) :
  magnitude transform a = 0.
Proof. reflexivity. Qed.

Lemma sum_constructs (T : representation_class) (a b : base_representation) :
  sum transform uninitialised T a b
  = from_cartesian T
      (componentwise_sum (transform (get_point a)) (transform (get_point b))).
Proof. reflexivity. Qed.

Lemma mean_constructs (T : representation_class) (a b : base_representation) :
  mean transform uninitialised T a b
  = from_cartesian T
      (halved (componentwise_sum (transform (get_point a))
                                 (transform (get_point b)))).
Proof. reflexivity. Qed.

Lemma unit_vector_constructs (T : representation_class) (a : base_representation) :
  unit_vector transform T a
  = from_cartesian T
      (divided_by (transform (get_point a)) (magnitude transform a)).
Proof. reflexivity. Qed.

Lemma componentwise_sum_comm (p q : cartesian_point) :
  componentwise_sum p q = componentwise_sum q p.
Proof.
  unfold componentwise_sum.
  now rewrite (Binary64Facts.add_comm (c0 p)), (Binary64Facts.add_comm (c1 p)),
    (Binary64Facts.add_comm (c2 p)).
Qed.

Lemma dot_product_comm (p q : cartesian_point) :
  dot_product p q = dot_product q p.
Proof.
  unfold dot_product.
  now rewrite (Binary64Facts.mul_comm (get 0 p)), (Binary64Facts.mul_comm (get 1 p)),
    (Binary64Facts.mul_comm (get 2 p)).
Qed.

Lemma cross_product_swap (p q : cartesian_point) :
  additive_inverses (cross_product p q) (cross_product q p).
Proof.
  unfold additive_inverses, cross_product; simpl.
  rewrite (Binary64Facts.mul_comm (c1 q) (c2 p)), (Binary64Facts.mul_comm (c2 q) (c1 p)),
    (Binary64Facts.mul_comm (c2 q) (c0 p)), (Binary64Facts.mul_comm (c0 q) (c2 p)),
    (Binary64Facts.mul_comm (c0 q) (c1 p)), (Binary64Facts.mul_comm (c1 q) (c0 p)).
  repeat split; apply Binary64Facts.sub_swap_same_value.
Qed.

End WithKernel.

End CoordinateFacts.

(** ** The capability check *)

Module StaticCheckFacts.
Import Geometry StaticCheck.

(** The check does not look at the dimension or the system of the base. *)
Lemma is_base_template_of_base (D : Z) (c : cs) :
  is_base_template_of (base_representation D c) = true_type.
Proof. reflexivity. Qed.

Lemma is_base_template_of_derived (n : string) (B : type) :
  is_base_template_of (derived_class n B) = test B.
Proof. reflexivity. Qed.

Lemma is_base_template_of_fundamental (n : string) :
  is_base_template_of (fundamental n) = false_type.
Proof. reflexivity. Qed.

Lemma assert_value_diagnostic (c : integral_constant) (m : string) :
  value c = false ->
  BOOST_STATIC_ASSERT_MSG (constant_expression (value c)) m
  = [static_assertion_failed m].
Proof. destruct c; [discriminate | reflexivity]. Qed.


Lemma unit_vector_diagnostic (ReturnType : type) :
  value (is_base_template_of ReturnType) = false ->
  unit_vector ReturnType = [static_assertion_failed return_message].
Proof. apply assert_value_diagnostic. Qed.

Lemma dot_diagnostic (Representation : type) :
  value (is_base_template_of Representation) = false ->
  dot Representation = [static_assertion_failed argument_message].
Proof. apply assert_value_diagnostic. Qed.

End StaticCheckFacts.

(** ** The claims of the specification *)

Import Binary64 Geometry Coordinate.

(** C1 (not met by the code).  [magnitude] is specified as the Euclidean
    norm of the canonical cartesian point.  For the cartesian
    representation whose canonical point is (1,0,0) the norm is 1.0, and
    [magnitude] returns 0.0: the two differ. *)
Theorem magnitude_misses_euclidean_norm :
  let a := base (cartesian_representation copy_per_coordinate)
             (Build_cartesian_point 1 0 0) in
  copy_per_coordinate (get_point a) = Build_cartesian_point 1 0 0
  /\ euclidean_norm (copy_per_coordinate (get_point a)) = 1
  /\ magnitude copy_per_coordinate a = 0
  /\ magnitude copy_per_coordinate a
     <> euclidean_norm (copy_per_coordinate (get_point a)).
Proof.
  cbv zeta. repeat split; try reflexivity.
  change ((0 : float) <> 1). exact CoordinateFacts.float_zero_not_one.
Qed.

(** C2.  Whatever the kernel's conversion and whatever coordinates a
    representation stores, [magnitude] returns zero: nothing is added to
    [result] between its initialisation to 0.0 and the square root. *)
Theorem magnitude_always_zero
    (transform : Geometry.point -> cartesian_point) (a : base_representation) :
  magnitude transform a = 0.
Proof.
  unfold magnitude. reflexivity.
Qed.

(** C3 (not met by the code).  [unit_vector] does divide the canonical
    vector component-wise by [magnitude()], but [magnitude()] is zero, so
    the result is not normalised: from the canonical point (1,0,0) it
    builds (inf, NaN, NaN), and the magnitude of whatever it returns is
    0.0, not 1.0. *)
Theorem unit_vector_not_normalised :
  (forall (transform : Geometry.point -> cartesian_point)
          (T : representation_class) (a : base_representation),
      unit_vector transform T a
      = from_cartesian T (divided_by (transform (get_point a)) (magnitude transform a))
      /\ magnitude transform (base T (unit_vector transform T a)) = 0)
  /\ (let T := cartesian_representation copy_per_coordinate in
      let a := base T (Build_cartesian_point 1 0 0) in
      unit_vector copy_per_coordinate T a = Build_cartesian_point infinity nan nan
      /\ ~ same_value (magnitude copy_per_coordinate
                         (base T (unit_vector copy_per_coordinate T a))) 1).
Proof.
  split.
  - intros transform T a. split.
    + apply CoordinateFacts.unit_vector_constructs.
    + apply CoordinateFacts.magnitude_zero.
  - cbv zeta. split; [reflexivity |].
    rewrite CoordinateFacts.magnitude_zero.
    intros [H | H].
    + exact (CoordinateFacts.float_zero_not_one H).
    + vm_compute in H. discriminate.
Qed.

(** C4.  For all representations [a] and [b], of any coordinate systems
    and dimension counts, [a.dot(b)] and [b.dot(a)] are the same double. *)
Theorem dot_commutative
    (transform : Geometry.point -> cartesian_point) (a b : base_representation) :
  dot transform a b = dot transform b a.
Proof.
  unfold dot. apply CoordinateFacts.dot_product_comm.
Qed.

(** C5.  For all representations [a] and [b] and every result type [T],
    [a.cross<T>(b)] and [b.cross<T>(a)] are constructed from canonical
    vectors that are component-wise additive inverses of each other. *)
Theorem cross_anticommutative
    (transform : Geometry.point -> cartesian_point)
    (T : representation_class) (a b : base_representation) :
  let p := cross_product (transform (get_point a)) (transform (get_point b)) in
  let q := cross_product (transform (get_point b)) (transform (get_point a)) in
  cross transform T a b = from_cartesian T p
  /\ cross transform T b a = from_cartesian T q
  /\ additive_inverses p q.
Proof.
  cbv zeta. split; [reflexivity | split; [reflexivity |]].
  apply CoordinateFacts.cross_product_swap.
Qed.

(** C6.  For all representations [a] and [b] and every result type [T],
    [a.sum<T>(b)] is constructed from the component-wise sum of the two
    canonical points.  For every result type that converts back within
    its tolerance, the canonical point the kernel reads from the result
    is within that tolerance of the component-wise sum.  For the
    canonical operands (1,0,0) and (0,1,0) the sum is (1,1,0). *)
Theorem sum_componentwise :
  (forall (transform : Geometry.point -> cartesian_point)
          (uninitialised : cartesian_point)
          (T : representation_class) (a b : base_representation),
      sum transform uninitialised T a b
      = from_cartesian T
          (componentwise_sum (transform (get_point a)) (transform (get_point b))))
  /\ (forall (transform : Geometry.point -> cartesian_point)
            (uninitialised : cartesian_point)
            (T : representation_class) (a b : base_representation)
            (close : cartesian_point -> cartesian_point -> Prop),
      converts_back transform close T ->
      close (transform (get_point (base T (sum transform uninitialised T a b))))
            (componentwise_sum (transform (get_point a)) (transform (get_point b))))
  /\ (forall uninitialised : cartesian_point,
      let C := cartesian_representation copy_per_coordinate in
      sum copy_per_coordinate uninitialised C
        (base C (Build_cartesian_point 1 0 0)) (base C (Build_cartesian_point 0 1 0))
      = Build_cartesian_point 1 1 0).
Proof.
  split; [| split].
  - intros. apply CoordinateFacts.sum_constructs.
  - intros transform u T a b close H.
    rewrite CoordinateFacts.sum_constructs. apply H.
  - intros u. reflexivity.
Qed.

Lemma sum_componentwise_witness :
  let C := cartesian_representation copy_per_coordinate in
  let a := base C (Build_cartesian_point 1 0 0) in
  let b := base C (Build_cartesian_point 0 1 0) in
  converts_back copy_per_coordinate eq C
  /\ copy_per_coordinate
       (get_point (base C (sum copy_per_coordinate
                             (Build_cartesian_point nan nan nan) C a b)))
     = componentwise_sum (copy_per_coordinate (get_point a))
                         (copy_per_coordinate (get_point b)).
Proof.
  cbv zeta.
  assert (H : converts_back copy_per_coordinate eq
                (cartesian_representation copy_per_coordinate)).
  { intros p. apply GeometryFacts.copy_per_coordinate_as_point. }
  split; [exact H |].
  exact (proj1 (proj2 sum_componentwise) copy_per_coordinate
           (Build_cartesian_point nan nan nan)
           (cartesian_representation copy_per_coordinate)
           (base (cartesian_representation copy_per_coordinate)
                 (Build_cartesian_point 1 0 0))
           (base (cartesian_representation copy_per_coordinate)
                 (Build_cartesian_point 0 1 0))
           eq H).
Defined.

(** C7.  For all representations [a] and [b] and every result type [T],
    [a.mean<T>(b)] is constructed from the canonical point of
    [a.sum<T>(b)] with every component halved, that is from (a+b)/2
    component-wise. *)
Theorem mean_halves_sum
    (transform : Geometry.point -> cartesian_point)
    (uninitialised : cartesian_point)
    (T : representation_class) (a b : base_representation) :
  let s := componentwise_sum (transform (get_point a)) (transform (get_point b)) in
  sum transform uninitialised T a b = from_cartesian T s
  /\ mean transform uninitialised T a b = from_cartesian T (halved s)
  /\ halved s
     = Build_cartesian_point
         ((c0 (transform (get_point a)) + c0 (transform (get_point b))) / 2)
         ((c1 (transform (get_point a)) + c1 (transform (get_point b))) / 2)
         ((c2 (transform (get_point a)) + c2 (transform (get_point b))) / 2).
Proof.
  cbv zeta. split; [| split].
  - apply CoordinateFacts.sum_constructs.
  - apply CoordinateFacts.mean_constructs.
  - reflexivity.
Qed.

(** C8 (not met by the code).  [to_representation] is to construct the
    result directly from the native point of [a].  Its body does so, but
    its static assertion is handed the capability check itself rather
    than the [::value] of the check, so the template is ill-formed for
    every result type: for the cartesian representation, which passes the
    capability check, there is no function that returns
    [ReturnType(this->point)]. *)
Theorem to_representation_is_ill_formed :
  (forall (ReturnType_type : StaticCheck.type) (ReturnType : representation_class),
      to_representation ReturnType_type ReturnType
      = ill_formed [StaticCheck.expected_expression])
  /\ (let C := cartesian_representation copy_per_coordinate in
      StaticCheck.value
        (StaticCheck.is_base_template_of StaticCheck.cartesian_representation)
      = true
      /\ to_representation StaticCheck.cartesian_representation C
         <> well_formed (fun a => from_point C (get_point a))).
Proof.
  split.
  - intros ReturnType_type ReturnType. reflexivity.
  - cbv zeta. split; [reflexivity | discriminate].
Qed.

(** C10.  For all representations [a] and [b] and every result type [T],
    [a.sum<T>(b)] and [b.sum<T>(a)] are the same value: the constructor of
    [T] receives the same canonical point in both calls. *)
Theorem sum_commutative
    (transform : Geometry.point -> cartesian_point)
    (uninitialised : cartesian_point)
    (T : representation_class) (a b : base_representation) :
  sum transform uninitialised T a b = sum transform uninitialised T b a.
Proof.
  rewrite !CoordinateFacts.sum_constructs.
  now rewrite CoordinateFacts.componentwise_sum_comm.
Qed.

(** C9 (not met by the code).  Every operation is to build for
    representation types and to be refused, with the message of the
    violated constraint, for the others.  [cross], [dot], [unit_vector],
    [sum] and [mean] assert the [::value] of the capability check;
    [to_representation] hands the check itself, a type, to the assertion,
    so it raises a diagnostic for every result type.  For the cartesian
    representation, which passes the capability check and for which the
    assertion of [unit_vector] raises nothing, [to_representation] is
    refused; for [double], which [unit_vector] refuses under the message
    of the constraint, the diagnostic of [to_representation] is not that
    message. *)
Theorem to_representation_does_not_build :
  (forall ReturnType : StaticCheck.type,
      StaticCheck.to_representation ReturnType = [StaticCheck.expected_expression])
  /\ StaticCheck.value
       (StaticCheck.is_base_template_of StaticCheck.cartesian_representation)
     = true
  /\ StaticCheck.unit_vector StaticCheck.cartesian_representation = []
  /\ StaticCheck.to_representation StaticCheck.cartesian_representation <> []
  /\ StaticCheck.unit_vector (StaticCheck.fundamental "double")
     = [StaticCheck.static_assertion_failed StaticCheck.return_message]
  /\ StaticCheck.to_representation (StaticCheck.fundamental "double")
     <> [StaticCheck.static_assertion_failed StaticCheck.return_message].
Proof.
  split; [| repeat split]; try discriminate.
  intros ReturnType. reflexivity.
Qed.

(** * Further properties of the operations *)

(** ** More binary64 arithmetic *)

Module Binary64More.
Import Binary64.

(** A double that is not finite: NaN or one of the two infinities. *)
Definition non_finite (x : float) : Prop :=
  x = nan \/ x = infinity \/ x = neg_infinity.

(** The sign bit is clear, or the value is NaN. *)
Definition nonneg_or_nan (x : spec_float) : bool :=
  match x with
  | S754_nan => true
  | S754_zero s | S754_infinity s | S754_finite s _ _ => negb s
  end.

Lemma Prim2SF_zero : Prim2SF 0 = S754_zero false.
Proof. reflexivity. Qed.

Lemma of_spec (x : float) (s : spec_float) : Prim2SF x = s -> x = SF2Prim s.
Proof. intros H. now rewrite <- H, SF2Prim_Prim2SF. Qed.

(** Division by [+0.0]: NaN for a zero or a NaN, otherwise the infinity
    of the sign of the dividend. *)
Lemma div_zero_spec (x : float) :
  match Prim2SF x with
  | S754_nan | S754_zero _ => x / 0 = nan
  | S754_infinity s | S754_finite s _ _ =>
      x / 0 = if s then neg_infinity else infinity
  end.
Proof.
  pose proof (div_spec x 0) as H. rewrite Prim2SF_zero in H.
  apply of_spec in H. rewrite H. unfold SF64div, SFdiv.
  destruct (Prim2SF x) as [s | s | | s m e]; try reflexivity;
    destruct s; reflexivity.
Qed.

Lemma div_zero_non_finite (x : float) : non_finite (x / 0).
Proof.
  pose proof (div_zero_spec x) as H. unfold non_finite.
  destruct (Prim2SF x) as [s | s | | s m e]; try (now left);
    destruct s; auto.
Qed.

Lemma eqb_zero_spec (x : float) :
  (x =? 0) = true -> exists s, Prim2SF x = S754_zero s.
Proof.
  rewrite eqb_spec, Prim2SF_zero. unfold SFeqb, SFcompare.
  destruct (Prim2SF x) as [s | s | | s m e]; try discriminate.
  - intros _. now exists s.
  - destruct s; discriminate.
  - destruct s; discriminate.
Qed.

Lemma div_zero_of_zero (x : float) : (x =? 0) = true -> x / 0 = nan.
Proof.
  intros H. destruct (eqb_zero_spec x H) as [s E].
  pose proof (div_zero_spec x) as D. now rewrite E in D.
Qed.

(** [x - x] is [+0.0], or NaN when [x] is infinite or NaN. *)
Lemma sub_diag (x : float) : x - x = 0 \/ x - x = nan.
Proof.
  pose proof (sub_spec x x) as H. apply of_spec in H. rewrite H.
  unfold SF64sub, SFsub.
  destruct (Prim2SF x) as [s | s | | s m e].
  - left. destruct s; reflexivity.
  - right. destruct s; reflexivity.
  - right. reflexivity.
  - left. cbv zeta. rewrite Z.sub_diag. reflexivity.
Qed.

(** [x + 0.0] holds the value of [x]: only [-0.0] becomes [+0.0]. *)
Lemma add_zero_same_value (x : float) : same_value (x + 0) x.
Proof.
  pose proof (add_spec x 0) as H. rewrite Prim2SF_zero in H.
  unfold SF64add, SFadd in H.
  destruct (Prim2SF x) as [s | s | | s m e] eqn:E.
  - destruct s.
    + right. rewrite eqb_spec, H, E. reflexivity.
    + left. apply Prim2SF_inj. now rewrite H, E.
  - left. apply Prim2SF_inj. now rewrite H, E.
  - left. apply Prim2SF_inj. now rewrite H, E.
  - left. apply Prim2SF_inj. now rewrite H, E.
Qed.

Lemma binary_round_aux_nonneg (m e : Z) (l : location) :
  nonneg_or_nan (binary_round_aux prec emax false m e l) = true.
Proof.
  unfold binary_round_aux.
  destruct (shr_fexp prec emax m e l) as [mrs' e'].
  destruct (shr_fexp prec emax _ e' loc_Exact) as [mrs'' e''].
  destruct (shr_m mrs''); try reflexivity.
  now destruct (Z.leb e'' (Z.sub emax prec)).
Qed.

Lemma SFmul_diag_nonneg (x : spec_float) : nonneg_or_nan (SF64mul x x) = true.
Proof.
  unfold SF64mul, SFmul.
  destruct x as [s | s | | s m e]; try reflexivity; try (now destruct s).
  cbv beta iota. rewrite xorb_nilpotent. apply binary_round_aux_nonneg.
Qed.

Lemma SFadd_nonneg (x y : spec_float) :
  nonneg_or_nan x = true -> nonneg_or_nan y = true ->
  nonneg_or_nan (SF64add x y) = true.
Proof.
  unfold SF64add, SFadd.
  destruct x as [sx | sx | | sx mx ex], y as [sy | sy | | sy my ey];
    simpl; intros Hx Hy; try reflexivity; try assumption;
    try (destruct sx; [discriminate |]); try (destruct sy; [discriminate |]);
    try reflexivity.
  unfold cond_Zopp.
  change (Z.add (Zpos ?a) (Zpos ?b)) with (Zpos (Pos.add a b)).
  unfold binary_normalize, binary_round.
  destruct (shl_align (Pos.add _ _) _ _) as [mz ez].
  apply binary_round_aux_nonneg.
Qed.

Lemma nonneg_not_below_zero (x : float) :
  nonneg_or_nan (Prim2SF x) = true -> (x <? 0) = false.
Proof.
  rewrite ltb_spec, Prim2SF_zero. unfold SFltb, SFcompare.
  destruct (Prim2SF x) as [s | s | | s m e]; simpl; try reflexivity;
    destruct s; try discriminate; reflexivity.
Qed.

(** A finite double: a zero, a subnormal or a normal number. *)
Definition finiteb (x : float) : bool :=
  match Prim2SF x with
  | S754_zero _ | S754_finite _ _ _ => true
  | _ => false
  end.

Definition zerob (x : spec_float) : bool :=
  match x with
  | S754_zero _ => true
  | _ => false
  end.

Lemma mul_zero_is_zero (x : float) :
  finiteb x = true -> zerob (Prim2SF (x * 0)) = true.
Proof.
  unfold finiteb. rewrite mul_spec, Prim2SF_zero. unfold SF64mul, SFmul.
  destruct (Prim2SF x) as [s | s | | s m e]; try discriminate; reflexivity.
Qed.

Lemma add_zeros_is_zero (x y : float) :
  zerob (Prim2SF x) = true -> zerob (Prim2SF y) = true ->
  zerob (Prim2SF (x + y)) = true.
Proof.
  rewrite add_spec. unfold SF64add, SFadd.
  destruct (Prim2SF x) as [sx | sx | | sx mx ex]; try discriminate.
  destruct (Prim2SF y) as [sy | sy | | sy my ey]; try discriminate.
  now destruct sx, sy.
Qed.

Lemma zero_eqb_zero (x : float) :
  zerob (Prim2SF x) = true -> (x =? 0) = true.
Proof.
  rewrite eqb_spec, Prim2SF_zero.
  destruct (Prim2SF x) as [s | s | | s m e]; try discriminate; reflexivity.
Qed.

(** Dividing by [+0.0] twice is dividing once. *)
Lemma div_zero_twice (x : float) : x / 0 / 0 = x / 0.
Proof.
  destruct (div_zero_non_finite x) as [H | [H | H]]; rewrite H; reflexivity.
Qed.

End Binary64More.

(** ** More on the capability check *)

Module StaticCheckMore.
Import Geometry StaticCheck.

(** The class at the end of a chain of public derivations: the last name
    derives from [B], each earlier name from the class after it. *)
Fixpoint derived_through (names : list string) (B : type) : type :=
  match names with
  | [] => B
  | n :: rest => derived_class n (derived_through rest B)
  end.

(** Any number of top-level [const] and [volatile] qualifiers. *)
Fixpoint qualified (qualifiers : list bool) (T : type) : type :=
  match qualifiers with
  | [] => T
  | true :: rest => const (qualified rest T)
  | false :: rest => volatile (qualified rest T)
  end.

Lemma remove_cv_qualified (qs : list bool) (T : type) :
  remove_cv (qualified qs T) = remove_cv T.
Proof.
  induction qs as [| [|] qs IH]; simpl; auto.
Qed.

Lemma test_derived_through (names : list string) (B : type) :
  test (derived_through names B) = test B.
Proof.
  induction names as [| n names IH]; simpl; auto.
Qed.

Lemma remove_cv_derived_through (n : string) (names : list string) (B : type) :
  remove_cv (derived_through (n :: names) B) = derived_through (n :: names) B.
Proof. reflexivity. Qed.

End StaticCheckMore.

(** ** The properties *)

Import Binary64More StaticCheckMore.

(** X1.  [mean] is commutative: [a.mean<T>(b)] and [b.mean<T>(a)] are the
    same value, for operands of any systems and any result type. *)
Theorem mean_commutative
    (transform : Geometry.point -> cartesian_point)
    (uninitialised : cartesian_point)
    (T : representation_class) (a b : base_representation) :
  mean transform uninitialised T a b = mean transform uninitialised T b a.
Proof.
  rewrite !CoordinateFacts.mean_constructs.
  now rewrite CoordinateFacts.componentwise_sum_comm.
Qed.

(** X2.  [sum] and [mean] write all three coordinates of their
    default-constructed [result] before handing it on: what they return
    does not depend on the indeterminate contents of that point. *)
Theorem sum_mean_overwrite_result
    (transform : Geometry.point -> cartesian_point)
    (u u' : cartesian_point)
    (T : representation_class) (a b : base_representation) :
  sum transform u T a b = sum transform u' T a b
  /\ mean transform u T a b = mean transform u' T a b.
Proof.
  split.
  - now rewrite !CoordinateFacts.sum_constructs.
  - now rewrite !CoordinateFacts.mean_constructs.
Qed.

(** X3.  [unit_vector] never builds its result from a finite coordinate:
    since it divides by [magnitude()], which is 0.0, each canonical
    component handed to the result type is NaN or an infinity, for every
    representation. *)
Theorem unit_vector_never_finite
    (transform : Geometry.point -> cartesian_point)
    (T : representation_class) (a : base_representation) :
  let p := divided_by (transform (get_point a)) 0 in
  unit_vector transform T a = from_cartesian T p
  /\ non_finite (c0 p) /\ non_finite (c1 p) /\ non_finite (c2 p).
Proof.
  cbv zeta. split.
  - apply CoordinateFacts.unit_vector_constructs.
  - unfold divided_by; simpl. repeat split; apply div_zero_non_finite.
Qed.

(** X4.  For a representation at the canonical origin (each canonical
    component compares equal to 0.0), [unit_vector] builds its result from
    (NaN, NaN, NaN): the zero vector is not rejected. *)
Theorem unit_vector_of_origin
    (transform : Geometry.point -> cartesian_point)
    (T : representation_class) (a : base_representation)
    (H0 : (c0 (transform (get_point a)) =? 0) = true)
    (H1 : (c1 (transform (get_point a)) =? 0) = true)
    (H2 : (c2 (transform (get_point a)) =? 0) = true) :
  unit_vector transform T a
  = from_cartesian T (Build_cartesian_point nan nan nan).
Proof.
  rewrite CoordinateFacts.unit_vector_constructs, CoordinateFacts.magnitude_zero.
  unfold divided_by.
  now rewrite (div_zero_of_zero _ H0), (div_zero_of_zero _ H1),
    (div_zero_of_zero _ H2).
Qed.

Lemma unit_vector_of_origin_witness :
  let C := cartesian_representation copy_per_coordinate in
  let a := base C (Build_cartesian_point 0 (- 0) 0) in
  (c0 (copy_per_coordinate (get_point a)) =? 0) = true
  /\ (c1 (copy_per_coordinate (get_point a)) =? 0) = true
  /\ (c2 (copy_per_coordinate (get_point a)) =? 0) = true
  /\ unit_vector copy_per_coordinate C a = Build_cartesian_point nan nan nan.
Proof.
  cbv zeta. repeat (split; [reflexivity |]).
  apply (unit_vector_of_origin copy_per_coordinate
           (cartesian_representation copy_per_coordinate)
           (base (cartesian_representation copy_per_coordinate)
                 (Build_cartesian_point 0 (- 0) 0)));
    reflexivity.
Defined.

(** X5.  The cross product of a representation with itself is built from
    a canonical vector whose every component is [+0.0], or NaN where the
    products overflow or are NaN. *)
Theorem cross_with_itself
    (transform : Geometry.point -> cartesian_point)
    (T : representation_class) (a : base_representation) :
  let p := cross_product (transform (get_point a)) (transform (get_point a)) in
  cross transform T a a = from_cartesian T p
  /\ (c0 p = 0 \/ c0 p = nan)
  /\ (c1 p = 0 \/ c1 p = nan)
  /\ (c2 p = 0 \/ c2 p = nan).
Proof.
  cbv zeta. split; [reflexivity |].
  unfold cross_product; simpl.
  set (t := transform (get_point a)).
  rewrite (Binary64Facts.mul_comm (c2 t) (c1 t)),
    (Binary64Facts.mul_comm (c0 t) (c2 t)),
    (Binary64Facts.mul_comm (c1 t) (c0 t)).
  repeat split; apply sub_diag.
Qed.

(** X6.  The dot product of a representation with itself is never
    negative: [a.dot(a) < 0] is false for every representation (the
    result is NaN or has its sign bit clear). *)
Theorem dot_with_itself_not_negative
    (transform : Geometry.point -> cartesian_point) (a : base_representation) :
  (dot transform a a <? 0) = false.
Proof.
  apply nonneg_not_below_zero.
  unfold dot, dot_product.
  rewrite !add_spec, !mul_spec.
  repeat apply SFadd_nonneg; apply SFmul_diag_nonneg.
Qed.

(** X7.  A representation at the canonical origin (0,0,0) is neutral for
    [sum], on either side: the result is built from a point whose
    components hold the values of the other operand's canonical
    components. *)
Theorem sum_with_origin
    (transform : Geometry.point -> cartesian_point)
    (uninitialised : cartesian_point)
    (T : representation_class) (a b : base_representation)
    (H : transform (get_point b) = Build_cartesian_point 0 0 0) :
  let s := componentwise_sum (transform (get_point a)) (transform (get_point b)) in
  sum transform uninitialised T a b = from_cartesian T s
  /\ sum transform uninitialised T b a = from_cartesian T s
  /\ same_value (c0 s) (c0 (transform (get_point a)))
  /\ same_value (c1 s) (c1 (transform (get_point a)))
  /\ same_value (c2 s) (c2 (transform (get_point a))).
Proof.
  cbv zeta. split; [| split].
  - apply CoordinateFacts.sum_constructs.
  - rewrite CoordinateFacts.sum_constructs.
    now rewrite CoordinateFacts.componentwise_sum_comm.
  - rewrite H. unfold componentwise_sum; simpl.
    repeat split; apply add_zero_same_value.
Qed.

Lemma sum_with_origin_witness :
  let C := cartesian_representation copy_per_coordinate in
  let a := base C (Build_cartesian_point 1 (- 0) 3) in
  let b := base C (Build_cartesian_point 0 0 0) in
  copy_per_coordinate (get_point b) = Build_cartesian_point 0 0 0
  /\ sum copy_per_coordinate (Build_cartesian_point nan nan nan) C a b
     = Build_cartesian_point 1 0 3.
Proof.
  cbv zeta. split; [reflexivity |].
  pose proof (sum_with_origin copy_per_coordinate
                (Build_cartesian_point nan nan nan)
                (cartesian_representation copy_per_coordinate)
                (base (cartesian_representation copy_per_coordinate)
                      (Build_cartesian_point 1 (- 0) 3))
                (base (cartesian_representation copy_per_coordinate)
                      (Build_cartesian_point 0 0 0))
                eq_refl) as [E _].
  exact E.
Defined.

(** X8.  The capability check accepts a class that derives from a
    specialization of [base_representation] through any chain of public
    bases, whatever the dimension and the system of that specialization
    and whatever top-level cv-qualifiers the type carries; it rejects the
    same chain when it ends in a class without base or in a fundamental
    type. *)
Theorem capability_check_follows_bases
    (qs : list bool) (names : list string) (D : Z) (c : cs) (n : string) :
  StaticCheck.is_base_template_of
    (qualified qs (derived_through names (StaticCheck.base_representation D c)))
  = StaticCheck.true_type
  /\ StaticCheck.is_base_template_of
       (qualified qs (derived_through names (StaticCheck.class n)))
     = StaticCheck.false_type
  /\ StaticCheck.is_base_template_of
       (qualified qs (derived_through names (StaticCheck.fundamental n)))
     = StaticCheck.false_type.
Proof.
  unfold StaticCheck.is_base_template_of.
  rewrite !remove_cv_qualified.
  destruct names as [| m names].
  - repeat split.
  - rewrite !remove_cv_derived_through, !test_derived_through. repeat split.
Qed.


(** X10.  The dot product with a representation at the canonical origin
    (0,0,0) is zero whenever the canonical components of the other operand
    are finite doubles. *)
Theorem dot_with_origin
    (transform : Geometry.point -> cartesian_point) (a b : base_representation)
    (Hb : transform (get_point b) = Build_cartesian_point 0 0 0)
    (H0 : finiteb (c0 (transform (get_point a))) = true)
    (H1 : finiteb (c1 (transform (get_point a))) = true)
    (H2 : finiteb (c2 (transform (get_point a))) = true) :
  (dot transform a b =? 0) = true /\ (dot transform b a =? 0) = true.
Proof.
  assert (S : dot transform b a = dot transform a b)
    by apply CoordinateFacts.dot_product_comm.
  rewrite S.
  assert (E : (dot transform a b =? 0) = true).
  { unfold dot, get_point in *. rewrite Hb. unfold dot_product; simpl.
    apply zero_eqb_zero.
    repeat apply add_zeros_is_zero; now apply mul_zero_is_zero. }
  now split.
Qed.

Lemma dot_with_origin_witness :
  let C := cartesian_representation copy_per_coordinate in
  let a := base C (Build_cartesian_point 1 (- 2) 0.5) in
  let b := base C (Build_cartesian_point 0 0 0) in
  copy_per_coordinate (get_point b) = Build_cartesian_point 0 0 0
  /\ finiteb (c0 (copy_per_coordinate (get_point a))) = true
  /\ finiteb (c1 (copy_per_coordinate (get_point a))) = true
  /\ finiteb (c2 (copy_per_coordinate (get_point a))) = true
  /\ (dot copy_per_coordinate a b =? 0) = true
  /\ (dot copy_per_coordinate b a =? 0) = true.
Proof.
  cbv zeta. repeat (split; [reflexivity |]).
  apply (dot_with_origin copy_per_coordinate
           (base (cartesian_representation copy_per_coordinate)
                 (Build_cartesian_point 1 (- 2) 0.5))
           (base (cartesian_representation copy_per_coordinate)
                 (Build_cartesian_point 0 0 0)));
    reflexivity.
Defined.

(** X11.  With the cartesian representation as result type, over a kernel
    that copies a canonical point into a canonical point, applying
    [unit_vector] to the result of [unit_vector] changes nothing. *)
Theorem unit_vector_twice
    (transform : Geometry.point -> cartesian_point) (a : base_representation)
    (H : forall p : cartesian_point, transform (as_point p) = p) :
  let C := cartesian_representation transform in
  unit_vector transform C (base C (unit_vector transform C a))
  = unit_vector transform C a.
Proof.
  cbv zeta.
  rewrite !CoordinateFacts.unit_vector_constructs, !CoordinateFacts.magnitude_zero.
  simpl. unfold get_point; simpl. rewrite H.
  unfold divided_by; simpl. now rewrite !div_zero_twice.
Qed.

Lemma unit_vector_twice_witness :
  let C := cartesian_representation copy_per_coordinate in
  let a := base C (Build_cartesian_point 3 0 (- 4)) in
  (forall p : cartesian_point, copy_per_coordinate (as_point p) = p)
  /\ unit_vector copy_per_coordinate C (base C (unit_vector copy_per_coordinate C a))
     = unit_vector copy_per_coordinate C a.
Proof.
  cbv zeta. split; [exact GeometryFacts.copy_per_coordinate_as_point |].
  exact (unit_vector_twice copy_per_coordinate
           (base (cartesian_representation copy_per_coordinate)
                 (Build_cartesian_point 3 0 (- 4)))
           GeometryFacts.copy_per_coordinate_as_point).
Defined.
